(** * kysely-d1: the D1 dialect, driver and connection of [src/index.ts]

    A shallow embedding of the three classes of [src/index.ts]
    ([D1Dialect], [D1Driver], [D1Connection]) together with the part of
    the JavaScript run time they rely on: primitive values, IEEE-754
    binary64 numbers, the [BigInt] conversion, thrown errors, and
    [async] functions, modelled as computations over a world that
    records every call made on the remote D1 client. *)

From Stdlib Require Import ZArith Bool List Lia DecimalString.
From Stdlib Require Import Floats.SpecFloat.
From stdpp Require Import base option list strings gmap.

Local Open Scope string_scope.
Local Open Scope Z_scope.

(** ** JavaScript numbers: IEEE-754 binary64 *)

Module Number.

Definition prec : Z := 53.
Definition emax : Z := 1024.

(** A JavaScript [number] is a binary64 float. *)
Definition t : Type := spec_float.

(** The [+] operator on two numbers. *)
Definition add (x y : t) : t := SFadd prec emax x y.

(** The number written as the integer literal [z]. *)
Definition of_Z (z : Z) : t := binary_normalize prec emax z 0 false.

(** The number [m * 2^e], rounded to nearest even. *)
Definition of_dyadic (m e : Z) : t := binary_normalize prec emax m e false.

(** ECMAScript IsIntegralNumber: NaN and the infinities are not
    integral; a finite [m * 2^e] is when no fractional bit is set. *)
Definition IsIntegralNumber (x : t) : bool :=
  match x with
  | S754_zero _ => true
  | S754_infinity _ => false
  | S754_nan => false
  | S754_finite _ m e =>
      if 0 <=? e then true else (Z.pos m mod 2 ^ (- e) =? 0)
  end.

(** The mathematical value of an integral number. *)
Definition to_Z (x : t) : Z :=
  match x with
  | S754_finite s m e =>
      cond_Zopp s (if 0 <=? e then Z.pos m * 2 ^ e else Z.pos m / 2 ^ (- e))
  | _ => 0
  end.

End Number.

Abbreviation number := Number.t.

(** ** Values, errors and outcomes *)

(** The primitive values a D1 column or a bind parameter can hold. *)
Inductive value : Type :=
  | VUndefined
  | VNull
  | VBoolean (b : bool)
  | VNumber (x : number)
  | VString (s : string)
  | VBigInt (z : Z).

(** [v === undefined] and [v === null]. *)
Definition is_undefined (v : value) : bool :=
  match v with VUndefined => true | _ => false end.

Definition is_null (v : value) : bool :=
  match v with VNull => true | _ => false end.

(** Thrown values.  [JsError msg] is [new Error(msg)]; the other three
    are the errors the run time raises by itself, whose messages are
    left to the engine. *)
Inductive exn : Type :=
  | JsError (message : string)
  | JsRangeError
  | JsTypeError
  | JsSyntaxError.

(** What awaiting a promise gives: its value, or the thrown error. *)
Inductive outcome (A : Type) : Type :=
  | Ok (a : A)
  | Throw (e : exn).

Arguments Ok {A} a.
Arguments Throw {A} e.

(** A row of a result set: a JavaScript object from column names to
    values. *)
Abbreviation row := (gmap string value).

(** ** The remote D1 client *)

(** The [error] field of a D1 response, declared [error?: string]; the
    store also sends [null]. *)
Inductive error_field : Type :=
  | ErrUndefined
  | ErrNull
  | ErrString (s : string).

(** ToBoolean on the [error] field: only a non-empty string is truthy. *)
Definition truthy (e : error_field) : bool :=
  match e with
  | ErrString s => negb (String.eqb s "")
  | _ => false
  end.

(** [new Error(e)]: the message is ToString of the argument, and empty
    when the argument is [undefined]. *)
Definition new_Error (e : error_field) : exn :=
  match e with
  | ErrUndefined => JsError ""
  | ErrNull => JsError "null"
  | ErrString s => JsError s
  end.

Record D1Meta : Type := {
  rows_read : number;
  rows_written : number;
}.

(** The response of [all()].  [results] is [None] when the field is
    [undefined]. *)
Record D1Result : Type := {
  error : error_field;
  meta : D1Meta;
  results : option (list row);
}.

(** The calls made on the remote client, in the order they are made. *)
Inductive remote_call : Type :=
  | CallPrepare (query : string)
  | CallBind (args : list value)
  | CallAll.

(** The world: the log of calls on the remote client and the number of
    connection objects allocated so far. *)
Record world : Type := {
  remote_log : list remote_call;
  allocated : nat;
}.

Definition log_call (c : remote_call) (w : world) : world :=
  {| remote_log := remote_log w ++ [c]; allocated := allocated w |}.

(** ** Asynchronous computations *)

(** An [async] function awaited to completion: it reads and updates
    the world and settles with a value or a thrown error. *)
Definition M (A : Type) : Type := world -> outcome A * world.

#[export] Instance M_ret : MRet M := fun A a w => (Ok a, w).

#[export] Instance M_bind : MBind M := fun A B f m w =>
  match m w with
  | (Ok a, w') => f a w'
  | (Throw e, w') => (Throw e, w')
  end.

Definition throw {A} (e : exn) : M A := fun w => (Throw e, w).

Definition lift {A} (o : outcome A) : M A := fun w => (o, w).

(** Modelled from the spec: the D1 client of [@cloudflare/workers-types]
    is not part of the repository.  A prepared statement carries the
    SQL text and the positional parameters bound so far; the store
    itself answers [all()] with a response or a rejection that may
    depend on the statement and on everything it was asked before. *)
Record D1PreparedStatement : Type := {
  stmt_sql : string;
  stmt_params : list value;
}.

Record D1Database : Type := {
  respond : list remote_call -> D1PreparedStatement -> outcome D1Result;
}.

Module D1.

(** Modelled from the spec: [prepare(sql)] returns a bindable
    statement. *)
Definition prepare (db : D1Database) (query : string) : M D1PreparedStatement :=
  fun w => (Ok {| stmt_sql := query; stmt_params := [] |},
            log_call (CallPrepare query) w).

(** Modelled from the spec: [bind(...params)] attaches positional
    parameters. *)
Definition bind (stmt : D1PreparedStatement) (args : list value)
  : M D1PreparedStatement :=
  fun w => (Ok {| stmt_sql := stmt_sql stmt; stmt_params := args |},
            log_call (CallBind args) w).

(** Modelled from the spec: [all()] executes the statement and
    returns the response. *)
Definition all (db : D1Database) (stmt : D1PreparedStatement) : M D1Result :=
  fun w => (respond db (remote_log w) stmt, log_call CallAll w).

End D1.

(** ** Kysely's data *)

Record CompiledQuery : Type := {
  sql : string;
  parameters : list value;
}.

Record QueryResult : Type := {
  insertId : option Z;
  rows : list row;
  numAffectedRows : number;
  numUpdatedOrDeletedRows : number;
}.

Record D1DialectConfig : Type := {
  database : D1Database;
}.

(** ** Arrays and optional chaining *)

(** [a[i]] on an array: [undefined] out of range. *)
Definition array_get {A} (a : list A) (i : Z) : option A :=
  if i <? 0 then None else a !! Z.to_nat i.

(** [lastRow?.id]. *)
Definition optional_id (lastRow : option row) : value :=
  match lastRow with
  | None => VUndefined
  | Some r => default VUndefined (r !! "id")
  end.

(** [lastRow.id]: reading a property of [undefined] throws. *)
Definition member_id (lastRow : option row) : outcome value :=
  match lastRow with
  | None => Throw JsTypeError
  | Some r => Ok (default VUndefined (r !! "id"))
  end.

(** ** The [BigInt] conversion *)

(** The run time's StringToBigInt, which parses the text of an integer
    literal and has no result on any other text.  It is the engine's,
    not the repository's, and is left open. *)
Class Engine : Type := {
  StringToBigInt : string -> option Z;
}.

(** ECMAScript NumberToBigInt: a RangeError unless the number is
    integral. *)
Definition NumberToBigInt (x : number) : outcome Z :=
  if Number.IsIntegralNumber x then Ok (Number.to_Z x) else Throw JsRangeError.

(** [BigInt(v)]. *)
Definition BigInt `{Engine} (v : value) : outcome Z :=
  match v with
  | VUndefined => Throw JsTypeError
  | VNull => Throw JsTypeError
  | VBoolean b => Ok (if b then 1 else 0)
  | VNumber x => NumberToBigInt x
  | VString s =>
      match StringToBigInt s with
      | Some z => Ok z
      | None => Throw JsSyntaxError
      end
  | VBigInt z => Ok z
  end.

(** ** Async generators *)

(** The states a generator without [yield] goes through. *)
Inductive AsyncGeneratorState : Type :=
  | SuspendedStart
  | Completed.

(** A generator object whose body has no [yield]: calling the
    generator function only creates the object; the body runs on the
    first [next()]. *)
Record AsyncGenerator : Type := {
  gen_state : AsyncGeneratorState;
  gen_body : M unit;
}.

Record IteratorResult (A : Type) : Type := {
  iter_value : option A;
  iter_done : bool;
}.

Arguments iter_value {A} _.
Arguments iter_done {A} _.

(** [g.next()], awaited: the settled result, the generator afterwards,
    and the world. *)
Definition AsyncGenerator_next {A} (g : AsyncGenerator) (w : world)
  : outcome (IteratorResult A) * AsyncGenerator * world :=
  let finished := {| gen_state := Completed; gen_body := gen_body g |} in
  match gen_state g with
  | SuspendedStart =>
      match gen_body g w with
      | (Ok _, w') => (Ok {| iter_value := None; iter_done := true |}, finished, w')
      | (Throw e, w') => (Throw e, finished, w')
      end
  | Completed => (Ok {| iter_value := None; iter_done := true |}, finished, w)
  end.

(** ** The classes of [src/index.ts] *)

Module D1Connection.

(** A connection object: its identity and its private [#config]. *)
Record t : Type := new {
  id : nat;
  config : D1DialectConfig;
}.

Definition executeQuery `{Engine} (this : t) (compiledQuery : CompiledQuery)
  : M QueryResult :=
  stmt ← D1.prepare (database (config this)) (sql compiledQuery);
  stmt ← D1.bind stmt (parameters compiledQuery);
  result ← D1.all (database (config this)) stmt;
  if truthy (error result)
  then throw (new_Error (error result))
  else
    let numAffectedRows :=
      Number.add (rows_read (meta result)) (rows_written (meta result)) in
    rs ← match results result with
         | Some rs => mret rs
         | None => throw JsTypeError
         end;
    let lastRow := array_get rs (Z.of_nat (length rs) - 1) in
    insertId ←
      (if is_undefined (optional_id lastRow) || is_null (optional_id lastRow)
       then mret None
       else v ← lift (member_id lastRow);
            z ← lift (BigInt v);
            mret (Some z));
    mret {| insertId := insertId;
            rows := default [] (results result);
            numAffectedRows := numAffectedRows;
            numUpdatedOrDeletedRows := numAffectedRows |}.

Definition beginTransaction (this : t) : M unit :=
  throw (JsError "Transactions are not supported yet.").

Definition commitTransaction (this : t) : M unit :=
  throw (JsError "Transactions are not supported yet.").

Definition rollbackTransaction (this : t) : M unit :=
  throw (JsError "Transactions are not supported yet.").

(** The body of the async generator [streamQuery]; it has no
    [yield]. *)
Definition streamQuery_body (this : t) (_compiledQuery : CompiledQuery)
    (_chunkSize : number) : M unit :=
  throw (JsError "D1 Driver does not support streaming").

(** [async *streamQuery(_compiledQuery, _chunkSize)]: the call
    creates the generator and runs nothing. *)
Definition streamQuery (this : t) (_compiledQuery : CompiledQuery)
    (_chunkSize : number) : M AsyncGenerator :=
  mret {| gen_state := SuspendedStart;
          gen_body := streamQuery_body this _compiledQuery _chunkSize |}.

End D1Connection.

Module D1Driver.

Record t : Type := new {
  config : D1DialectConfig;
}.

Definition init (this : t) : M unit := mret tt.

(** [new D1Connection(this.#config)]: the next unused identity. *)
Definition acquireConnection (this : t) : M D1Connection.t :=
  fun w => (Ok (D1Connection.new (allocated w) (config this)),
            {| remote_log := remote_log w; allocated := S (allocated w) |}).

Definition beginTransaction (this : t) (conn : D1Connection.t) : M unit :=
  r ← D1Connection.beginTransaction conn; mret r.

Definition commitTransaction (this : t) (conn : D1Connection.t) : M unit :=
  r ← D1Connection.commitTransaction conn; mret r.

Definition rollbackTransaction (this : t) (conn : D1Connection.t) : M unit :=
  r ← D1Connection.rollbackTransaction conn; mret r.

Definition releaseConnection (this : t) (_conn : D1Connection.t) : M unit :=
  mret tt.

Definition destroy (this : t) : M unit := mret tt.

End D1Driver.

Module D1Dialect.

Record t : Type := new {
  config : D1DialectConfig;
}.

Definition createDriver (this : t) : D1Driver.t :=
  D1Driver.new (config this).

End D1Dialect.

(** ** Call sequences *)

(** One call on a driver or on a connection. *)
Inductive api_call : Type :=
  | DriverInit (d : D1Driver.t)
  | DriverAcquireConnection (d : D1Driver.t)
  | DriverBeginTransaction (d : D1Driver.t) (c : D1Connection.t)
  | DriverCommitTransaction (d : D1Driver.t) (c : D1Connection.t)
  | DriverRollbackTransaction (d : D1Driver.t) (c : D1Connection.t)
  | DriverReleaseConnection (d : D1Driver.t) (c : D1Connection.t)
  | DriverDestroy (d : D1Driver.t)
  | ConnExecuteQuery (c : D1Connection.t) (q : CompiledQuery)
  | ConnBeginTransaction (c : D1Connection.t)
  | ConnCommitTransaction (c : D1Connection.t)
  | ConnRollbackTransaction (c : D1Connection.t)
  | ConnStreamQuery (c : D1Connection.t) (q : CompiledQuery) (chunkSize : number).

(** The world after one call; a streamed query is pulled once. *)
Definition run_call `{Engine} (a : api_call) (w : world) : world :=
  match a with
  | DriverInit d => snd (D1Driver.init d w)
  | DriverAcquireConnection d => snd (D1Driver.acquireConnection d w)
  | DriverBeginTransaction d c => snd (D1Driver.beginTransaction d c w)
  | DriverCommitTransaction d c => snd (D1Driver.commitTransaction d c w)
  | DriverRollbackTransaction d c => snd (D1Driver.rollbackTransaction d c w)
  | DriverReleaseConnection d c => snd (D1Driver.releaseConnection d c w)
  | DriverDestroy d => snd (D1Driver.destroy d w)
  | ConnExecuteQuery c q => snd (D1Connection.executeQuery c q w)
  | ConnBeginTransaction c => snd (D1Connection.beginTransaction c w)
  | ConnCommitTransaction c => snd (D1Connection.commitTransaction c w)
  | ConnRollbackTransaction c => snd (D1Connection.rollbackTransaction c w)
  | ConnStreamQuery c q n =>
      match D1Connection.streamQuery c q n w with
      | (Ok g, w') => snd (AsyncGenerator_next (A := QueryResult) g w')
      | (Throw _, w') => w'
      end
  end.

Definition run_calls `{Engine} (prior : list api_call) (w : world) : world :=
  fold_left (fun w a => run_call a w) prior w.

(** ** What the specification says of the last row *)

(** The ["id"] field of the last row of a result sequence; [undefined]
    when the sequence is empty or the row has no such field. *)
Definition last_row_id (rs : list row) : value :=
  match last rs with
  | Some r => default VUndefined (r !! "id")
  | None => VUndefined
  end.

(** [undefined] or [null]. *)
Definition is_nullish (v : value) : bool :=
  match v with
  | VUndefined | VNull => true
  | _ => false
  end.

(** The response the store gives to the query [q] asked in world [w]. *)
Definition remote_response (c : D1Connection.t) (q : CompiledQuery) (w : world)
  : outcome D1Result :=
  respond (database (D1Connection.config c))
    (remote_log w ++ [CallPrepare (sql q); CallBind (parameters q)])
    {| stmt_sql := sql q; stmt_params := parameters q |}.

(** The world after the three calls [executeQuery] makes on the client. *)
Definition after_query (q : CompiledQuery) (w : world) : world :=
  {| remote_log :=
       remote_log w ++ [CallPrepare (sql q); CallBind (parameters q); CallAll];
     allocated := allocated w |}.

(** [rows_read + rows_written] of a response. *)
Definition affected_rows (r : D1Result) : number :=
  Number.add (rows_read (meta r)) (rows_written (meta r)).

(** The result record of a response [r] with rows [rs] and insertion
    identifier [i]. *)
Definition result_of (r : D1Result) (rs : list row) (i : option Z) : QueryResult :=
  {| insertId := i;
     rows := rs;
     numAffectedRows := affected_rows r;
     numUpdatedOrDeletedRows := affected_rows r |}.

(** What the specification says [executeQuery] makes of a response
    whose error is not raised. *)
Definition query_outcome `{Engine} (r : D1Result) : outcome QueryResult :=
  match results r with
  | None => Throw JsTypeError
  | Some rs =>
      if is_nullish (last_row_id rs) then Ok (result_of r rs None)
      else match BigInt (last_row_id rs) with
           | Ok z => Ok (result_of r rs (Some z))
           | Throw e => Throw e
           end
  end.

(** [true] when the [error] field holds a string, empty or not. *)
Definition error_is_set (e : error_field) : bool :=
  match e with
  | ErrString _ => true
  | _ => false
  end.

(** [true] when the identity [i] has been given to a connection. *)
Definition is_allocated (w : world) (i : nat) : bool :=
  (i <? allocated w)%nat.

(** ** Example data *)

(** An engine for the examples: it reads strings of decimal digits. *)
Definition digits_engine : Engine :=
  {| StringToBigInt := fun s => option_map Z.of_uint (NilZero.uint_of_string s) |}.

(** A store that answers every statement with [r]. *)
Definition constant_store (r : D1Result) : D1Database :=
  {| respond := fun _ _ => Ok r |}.

Definition connection_to (r : D1Result) : D1Connection.t :=
  D1Connection.new 0 {| database := constant_store r |}.

Definition fresh_world : world := {| remote_log := []; allocated := 1 |}.

(** The query and the response of the specification's example. *)
Definition example_query : CompiledQuery :=
  {| sql := "SELECT * FROM t WHERE x = ?";
     parameters := [VNumber (Number.of_Z 5)] |}.

Definition example_row : row :=
  {[ "id" := VNumber (Number.of_Z 7); "x" := VNumber (Number.of_Z 5) ]}.

Definition example_response : D1Result :=
  {| error := ErrNull;
     meta := {| rows_read := Number.of_Z 1; rows_written := Number.of_Z 0 |};
     results := Some [example_row] |}.

(** A response without rows that read two rows and wrote three. *)
Definition empty_response : D1Result :=
  {| error := ErrUndefined;
     meta := {| rows_read := Number.of_Z 2; rows_written := Number.of_Z 3 |};
     results := Some [] |}.

(** A response whose [error] is the empty string. *)
Definition empty_error_response : D1Result :=
  {| error := ErrString "";
     meta := {| rows_read := Number.of_Z 0; rows_written := Number.of_Z 0 |};
     results := Some [] |}.

(** A response whose [error] is a message. *)
Definition failed_response : D1Result :=
  {| error := ErrString "no such table: t";
     meta := {| rows_read := Number.of_Z 0; rows_written := Number.of_Z 0 |};
     results := Some [] |}.

(** A response whose last row has the identifier 1.5. *)
Definition fractional_id_response : D1Result :=
  {| error := ErrUndefined;
     meta := {| rows_read := Number.of_Z 1; rows_written := Number.of_Z 0 |};
     results := Some [({[ "id" := VNumber (Number.of_dyadic 3 (-1)) ]} : row)] |}.

(** The result the specification's example expects. *)
Definition example_result : QueryResult :=
  {| insertId := Some 7;
     rows := [example_row];
     numAffectedRows := Number.of_Z 1;
     numUpdatedOrDeletedRows := Number.of_Z 1 |}.

(** The result of a query that returned no row. *)
Definition empty_result : QueryResult :=
  {| insertId := None;
     rows := [];
     numAffectedRows := Number.of_Z 5;
     numUpdatedOrDeletedRows := Number.of_Z 5 |}.

(** ** The effect of a call on the world *)

(** The calls one call of the interface makes on the store. *)
Definition store_calls (a : api_call) : list remote_call :=
  match a with
  | ConnExecuteQuery _ q => [CallPrepare (sql q); CallBind (parameters q); CallAll]
  | _ => []
  end.

(** The connection objects one call of the interface creates. *)
Definition allocations (a : api_call) : nat :=
  match a with
  | DriverAcquireConnection _ => 1
  | _ => 0
  end.

(** A response whose [results] field is [undefined]. *)
Definition no_results_response : D1Result :=
  {| error := ErrUndefined;
     meta := {| rows_read := Number.of_Z 0; rows_written := Number.of_Z 0 |};
     results := None |}.

(** A response whose last row has a text identifier. *)
Definition text_id_response : D1Result :=
  {| error := ErrUndefined;
     meta := {| rows_read := Number.of_Z 2; rows_written := Number.of_Z 0 |};
     results := Some [({[ "id" := VNumber (Number.of_Z 1) ]} : row);
                      ({[ "id" := VString "a1" ]} : row)] |}.

(** A store that rejects every statement with [e]. *)
Definition rejecting_store (e : exn) : D1Database :=
  {| respond := fun _ _ => Throw e |}.

(** Rows whose last one has a [null] identifier, after one that has
    an identifier. *)
Definition null_id_rows : list row :=
  [({[ "id" := VNumber (Number.of_Z 3) ]} : row);
   ({[ "id" := VNull; "x" := VNumber (Number.of_Z 5) ]} : row)].

Definition null_id_response : D1Result :=
  {| error := ErrUndefined;
     meta := {| rows_read := Number.of_Z 2; rows_written := Number.of_Z 0 |};
     results := Some null_id_rows |}.

(** Rows whose last one has no ["id"] column, after one that has. *)
Definition missing_id_rows : list row :=
  [({[ "id" := VNumber (Number.of_Z 3) ]} : row);
   ({[ "x" := VString "a" ]} : row)].

Definition missing_id_response : D1Result :=
  {| error := ErrNull;
     meta := {| rows_read := Number.of_Z 2; rows_written := Number.of_Z 0 |};
     results := Some missing_id_rows |}.

(** ** Basic facts *)

(** Unfolds the monad of asynchronous computations. *)
Ltac run_M := unfold mbind, M_bind, mret, M_ret, throw, lift; cbn beta iota.

Lemma array_get_last {A} (l : list A) :
  array_get l (Z.of_nat (length l) - 1) = last l.
Proof.
  unfold array_get. rewrite last_lookup.
  destruct l as [|a l]; [reflexivity|].
  cbn [length]. destruct (Z.ltb_spec (Z.of_nat (S (length l)) - 1) 0) as [Hlt|_].
  - lia.
  - f_equal. lia.
Qed.

Lemma optional_id_last (rs : list row) :
  optional_id (last rs) = last_row_id rs.
Proof. reflexivity. Qed.

Lemma nullish_spec (v : value) :
  is_undefined v || is_null v = is_nullish v.
Proof. destruct v; reflexivity. Qed.

Lemma member_id_last (rs : list row) :
  is_nullish (last_row_id rs) = false ->
  member_id (last rs) = Ok (last_row_id rs).
Proof.
  unfold last_row_id, member_id. destruct (last rs); [reflexivity|discriminate].
Qed.

Lemma log_call_thrice (a b c : remote_call) (w : world) :
  log_call c (log_call b (log_call a w)) =
  {| remote_log := remote_log w ++ [a; b; c]; allocated := allocated w |}.
Proof.
  unfold log_call; cbn. f_equal. rewrite <- !app_assoc. reflexivity.
Qed.

(** [executeQuery] asks the store once and then either rethrows its
    rejection, raises its error, or builds the result. *)
Lemma executeQuery_eq `{Engine} (c : D1Connection.t) (q : CompiledQuery) (w : world) :
  D1Connection.executeQuery c q w =
  match remote_response c q w with
  | Throw e => (Throw e, after_query q w)
  | Ok r =>
      if truthy (error r)
      then (Throw (new_Error (error r)), after_query q w)
      else (query_outcome r, after_query q w)
  end.
Proof.
  unfold D1Connection.executeQuery, remote_response, after_query.
  unfold D1.prepare, D1.bind, D1.all. run_M.
  rewrite log_call_thrice.
  replace (remote_log (log_call (CallBind (parameters q))
                         (log_call (CallPrepare (sql q)) w)))
    with (remote_log w ++ [CallPrepare (sql q); CallBind (parameters q)])%list
    by (unfold log_call; cbn; rewrite <- app_assoc; reflexivity).
  cbn [stmt_sql].
  destruct (respond _ _ _) as [r|e]; [|reflexivity].
  destruct (truthy (error r)); [reflexivity|].
  unfold query_outcome.
  destruct (results r) as [rs|]; [|reflexivity].
  rewrite array_get_last, optional_id_last, nullish_spec.
  destruct (is_nullish (last_row_id rs)) eqn:Hn; [reflexivity|].
  rewrite (member_id_last rs Hn).
  destruct (BigInt (last_row_id rs)); reflexivity.
Qed.

(** A call that returns was answered, without a raised error, by a
    response from which the result was built. *)
Lemma executeQuery_Ok_inv `{Engine} (c : D1Connection.t) (q : CompiledQuery)
    (w w' : world) (res : QueryResult) :
  D1Connection.executeQuery c q w = (Ok res, w') ->
  exists r, remote_response c q w = Ok r /\ truthy (error r) = false /\
            query_outcome r = Ok res /\ w' = after_query q w.
Proof.
  rewrite executeQuery_eq. intros Hrun.
  destruct (remote_response c q w) as [r|e]; [|discriminate].
  exists r. destruct (truthy (error r)); [discriminate|].
  injection Hrun as Hout Hw. auto.
Qed.

Lemma query_outcome_Ok_inv `{Engine} (r : D1Result) (res : QueryResult) :
  query_outcome r = Ok res ->
  exists rs, results r = Some rs /\
    ((is_nullish (last_row_id rs) = true /\ res = result_of r rs None) \/
     (is_nullish (last_row_id rs) = false /\
      exists z, BigInt (last_row_id rs) = Ok z /\ res = result_of r rs (Some z))).
Proof.
  unfold query_outcome. intros Hq.
  destruct (results r) as [rs|]; [|discriminate].
  exists rs. split; [reflexivity|].
  destruct (is_nullish (last_row_id rs)).
  - left. split; [reflexivity|congruence].
  - right. split; [reflexivity|].
    destruct (BigInt (last_row_id rs)) as [z|e]; [|discriminate].
    exists z. split; [reflexivity|congruence].
Qed.

(** ** The result of a successful query *)

Section ExecuteQuery.

Context `{Engine}.
Variables (c : D1Connection.t) (q : CompiledQuery) (w : world).

(** C1: when [executeQuery] returns, [insertId] is present exactly
    when the ["id"] field of the last returned row is neither
    [undefined] nor [null]; it is then [BigInt] of that field.  It is
    absent otherwise, in particular when no row was returned.  The
    returned rows are the rows of the store's response.  And the call
    does return so: on a response without error whose last row has no
    ["id"], or a [null] one, or that has no row at all, it returns the
    rows without [insertId]; on one whose last ["id"] [BigInt]
    converts, it returns them with the converted value. *)
Theorem executeQuery_insertId :
  (forall res w',
      D1Connection.executeQuery c q w = (Ok res, w') ->
      (insertId res <> None <-> is_nullish (last_row_id (rows res)) = false) /\
      (is_nullish (last_row_id (rows res)) = false ->
       exists z, BigInt (last_row_id (rows res)) = Ok z /\ insertId res = Some z) /\
      (is_nullish (last_row_id (rows res)) = true -> insertId res = None) /\
      (rows res = [] -> insertId res = None) /\
      (exists r, remote_response c q w = Ok r /\ results r = Some (rows res))) /\
  (forall r rs,
      remote_response c q w = Ok r -> truthy (error r) = false ->
      results r = Some rs ->
      (is_nullish (last_row_id rs) = true ->
       D1Connection.executeQuery c q w =
       (Ok (result_of r rs None), after_query q w)) /\
      (rs = [] ->
       D1Connection.executeQuery c q w =
       (Ok (result_of r [] None), after_query q w)) /\
      (forall z,
          is_nullish (last_row_id rs) = false ->
          BigInt (last_row_id rs) = Ok z ->
          D1Connection.executeQuery c q w =
          (Ok (result_of r rs (Some z)), after_query q w))).
Proof.
  split.
  - intros res w' Hrun.
    destruct (executeQuery_Ok_inv _ _ _ _ _ Hrun) as (r & Hresp & _ & Hout & _).
    destruct (query_outcome_Ok_inv _ _ Hout)
      as (rs & Hrs & [[Hn ->] | (Hn & z & Hz & ->)]); cbn [rows insertId result_of].
    + rewrite Hn. repeat split; try congruence; eauto.
    + rewrite Hn. repeat split; try congruence; eauto.
      intros ->. discriminate Hn.
  - intros r rs Hresp Herr Hrs.
    rewrite executeQuery_eq, Hresp, Herr. unfold query_outcome. rewrite Hrs.
    split; [|split].
    + intros Hn. rewrite Hn. reflexivity.
    + intros ->. reflexivity.
    + intros z Hn Hz. rewrite Hn, Hz. reflexivity.
Qed.

(** C3: when [executeQuery] returns, [numAffectedRows] is
    [rows_read + rows_written] of the store's response; and a
    response without rows and without error does make it return. *)
Theorem executeQuery_numAffectedRows :
  (forall res w',
      D1Connection.executeQuery c q w = (Ok res, w') ->
      exists r, remote_response c q w = Ok r /\
                numAffectedRows res =
                Number.add (rows_read (meta r)) (rows_written (meta r))) /\
  (forall r,
      remote_response c q w = Ok r -> truthy (error r) = false ->
      results r = Some [] ->
      exists res,
        D1Connection.executeQuery c q w = (Ok res, after_query q w) /\
        rows res = [] /\
        numAffectedRows res =
        Number.add (rows_read (meta r)) (rows_written (meta r))).
Proof.
  split.
  - intros res w' Hrun.
    destruct (executeQuery_Ok_inv _ _ _ _ _ Hrun) as (r & Hresp & _ & Hout & _).
    exists r. split; [assumption|].
    destruct (query_outcome_Ok_inv _ _ Hout)
      as (rs & _ & [[_ ->] | (_ & z & _ & ->)]); reflexivity.
  - intros r Hresp Herr Hrs.
    exists (result_of r [] None).
    rewrite executeQuery_eq, Hresp, Herr. unfold query_outcome.
    rewrite Hrs. auto.
Qed.

(** C10: when [executeQuery] returns, the result also carries
    [numUpdatedOrDeletedRows], equal to [numAffectedRows] and so to
    [rows_read + rows_written]. *)
Theorem executeQuery_numUpdatedOrDeletedRows (res : QueryResult) (w' : world) :
  D1Connection.executeQuery c q w = (Ok res, w') ->
  numUpdatedOrDeletedRows res = numAffectedRows res /\
  exists r, remote_response c q w = Ok r /\
            numUpdatedOrDeletedRows res =
            Number.add (rows_read (meta r)) (rows_written (meta r)).
Proof.
  intros Hrun.
  destruct (executeQuery_Ok_inv _ _ _ _ _ Hrun) as (r & Hresp & _ & Hout & _).
  destruct (query_outcome_Ok_inv _ _ Hout)
    as (rs & _ & [[_ ->] | (_ & z & _ & ->)]);
    (split; [reflexivity | exists r; split; [assumption | reflexivity]]).
Qed.

(** C5: [executeQuery] makes exactly three calls on the client:
    [prepare] with the SQL text as it is, [bind] with exactly the
    query's parameters in their order, and [all]; the statement the
    store executes carries that text and those parameters. *)
Theorem executeQuery_forwards_parameters :
  remote_log (snd (D1Connection.executeQuery c q w)) =
    (remote_log w ++
     [CallPrepare (sql q); CallBind (parameters q); CallAll])%list /\
  fst (D1Connection.executeQuery c q w) =
    match respond (database (D1Connection.config c))
            (remote_log w ++ [CallPrepare (sql q); CallBind (parameters q)])%list
            {| stmt_sql := sql q; stmt_params := parameters q |} with
    | Throw e => Throw e
    | Ok r => if truthy (error r) then Throw (new_Error (error r))
              else query_outcome r
    end.
Proof.
  rewrite executeQuery_eq. unfold remote_response.
  destruct (respond _ _ _) as [r|e]; [|split; reflexivity].
  destruct (truthy (error r)); split; reflexivity.
Qed.

End ExecuteQuery.

Lemma example_run :
  D1Connection.executeQuery (H := digits_engine)
    (connection_to example_response) example_query fresh_world =
  (Ok example_result, after_query example_query fresh_world).
Proof. vm_compute. reflexivity. Qed.

Lemma empty_run :
  D1Connection.executeQuery (H := digits_engine)
    (connection_to empty_response) example_query fresh_world =
  (Ok empty_result, after_query example_query fresh_world).
Proof. vm_compute. reflexivity. Qed.

Lemma executeQuery_insertId_witness :
  (D1Connection.executeQuery (H := digits_engine)
     (connection_to example_response) example_query fresh_world =
   (Ok example_result, after_query example_query fresh_world) /\
   exists z, BigInt (H := digits_engine) (last_row_id (rows example_result)) = Ok z /\
             insertId example_result = Some z) /\
  D1Connection.executeQuery (H := digits_engine)
    (connection_to empty_response) example_query fresh_world =
  (Ok (result_of empty_response [] None), after_query example_query fresh_world) /\
  (last_row_id null_id_rows = VNull /\
   D1Connection.executeQuery (H := digits_engine)
     (connection_to null_id_response) example_query fresh_world =
   (Ok (result_of null_id_response null_id_rows None),
    after_query example_query fresh_world)) /\
  (last_row_id missing_id_rows = VUndefined /\
   D1Connection.executeQuery (H := digits_engine)
     (connection_to missing_id_response) example_query fresh_world =
   (Ok (result_of missing_id_response missing_id_rows None),
    after_query example_query fresh_world)) /\
  D1Connection.executeQuery (H := digits_engine)
    (connection_to example_response) example_query fresh_world =
  (Ok (result_of example_response [example_row] (Some 7)),
   after_query example_query fresh_world).
Proof.
  split; [split; [vm_compute; reflexivity|]|split; [|split; [|split]]].
  - refine (proj1 (proj2 (proj1 (executeQuery_insertId (H := digits_engine)
              (connection_to example_response) example_query fresh_world)
              example_result (after_query example_query fresh_world) _)) _);
      vm_compute; reflexivity.
  - refine (proj1 (proj2 (proj2 (executeQuery_insertId (H := digits_engine)
              (connection_to empty_response) example_query fresh_world)
              empty_response [] _ _ _)) _); reflexivity.
  - split; [reflexivity|].
    refine (proj1 (proj2 (executeQuery_insertId (H := digits_engine)
              (connection_to null_id_response) example_query fresh_world)
              null_id_response null_id_rows _ _ _) _); reflexivity.
  - split; [reflexivity|].
    refine (proj1 (proj2 (executeQuery_insertId (H := digits_engine)
              (connection_to missing_id_response) example_query fresh_world)
              missing_id_response missing_id_rows _ _ _) _); reflexivity.
  - refine (proj2 (proj2 (proj2 (executeQuery_insertId (H := digits_engine)
              (connection_to example_response) example_query fresh_world)
              example_response [example_row] _ _ _)) 7 _ _); reflexivity.
Defined.

Lemma executeQuery_numAffectedRows_witness :
  D1Connection.executeQuery (H := digits_engine)
    (connection_to empty_response) example_query fresh_world =
  (Ok empty_result, after_query example_query fresh_world) /\
  (exists r, remote_response (connection_to empty_response) example_query fresh_world
             = Ok r /\
             numAffectedRows empty_result =
             Number.add (rows_read (meta r)) (rows_written (meta r))) /\
  (exists res,
      D1Connection.executeQuery (H := digits_engine)
        (connection_to empty_response) example_query fresh_world =
      (Ok res, after_query example_query fresh_world) /\
      rows res = [] /\
      numAffectedRows res = Number.add (Number.of_Z 2) (Number.of_Z 3)).
Proof.
  split; [vm_compute; reflexivity|]. split.
  - refine (proj1 (executeQuery_numAffectedRows (H := digits_engine)
              (connection_to empty_response) example_query fresh_world)
              empty_result (after_query example_query fresh_world) _).
    vm_compute; reflexivity.
  - refine (proj2 (executeQuery_numAffectedRows (H := digits_engine)
              (connection_to empty_response) example_query fresh_world)
              empty_response _ _ _); vm_compute; reflexivity.
Defined.

Lemma executeQuery_numUpdatedOrDeletedRows_witness :
  D1Connection.executeQuery (H := digits_engine)
    (connection_to example_response) example_query fresh_world =
  (Ok example_result, after_query example_query fresh_world) /\
  numUpdatedOrDeletedRows example_result = numAffectedRows example_result.
Proof.
  split; [vm_compute; reflexivity|].
  refine (proj1 (executeQuery_numUpdatedOrDeletedRows (H := digits_engine)
            (connection_to example_response) example_query fresh_world
            example_result (after_query example_query fresh_world) _)).
  vm_compute; reflexivity.
Defined.

(** ** The specification's example *)

(** C6: for the query [SELECT * FROM t WHERE x = ?] with parameters
    [[5]], answered with no error, one row read, none written and the
    row [{id: 7, x: 5}], [executeQuery] returns [insertId] 7n, that
    row, and [numAffectedRows] 1. *)
Theorem executeQuery_example `{Engine} (c : D1Connection.t) (w : world) :
  remote_response c example_query w = Ok example_response ->
  exists res,
    D1Connection.executeQuery c example_query w =
      (Ok res, after_query example_query w) /\
    insertId res = Some 7 /\
    rows res = [example_row] /\
    numAffectedRows res = Number.of_Z 1.
Proof.
  intros Hresp. exists example_result.
  rewrite executeQuery_eq, Hresp.
  split; [|repeat split].
  cbn [truthy error example_response]. f_equal.
Qed.

Lemma executeQuery_example_witness :
  remote_response (connection_to example_response) example_query fresh_world =
  Ok example_response /\
  exists res,
    D1Connection.executeQuery (H := digits_engine)
      (connection_to example_response) example_query fresh_world =
      (Ok res, after_query example_query fresh_world) /\
    insertId res = Some 7 /\
    rows res = [example_row] /\
    numAffectedRows res = Number.of_Z 1.
Proof.
  split; [reflexivity|].
  apply (executeQuery_example (H := digits_engine)). reflexivity.
Defined.

(** ** Errors of the store *)

(** The success path raises run-time errors only, never [new Error]. *)
Lemma BigInt_not_JsError `{Engine} (v : value) (msg : string) :
  BigInt v <> Throw (JsError msg).
Proof.
  destruct v as [| |b|x|s|z]; cbn; try discriminate.
  - unfold NumberToBigInt. destruct (Number.IsIntegralNumber x); discriminate.
  - destruct (StringToBigInt s); discriminate.
Qed.

Lemma query_outcome_not_JsError `{Engine} (r : D1Result) (msg : string) :
  query_outcome r <> Throw (JsError msg).
Proof.
  unfold query_outcome. destruct (results r) as [rs|]; [|discriminate].
  destruct (is_nullish (last_row_id rs)); [discriminate|].
  destruct (BigInt (last_row_id rs)) as [z|e] eqn:Hb; [discriminate|].
  intros [= ->]. exact (BigInt_not_JsError _ _ Hb).
Qed.

Lemma truthy_inv (e : error_field) :
  truthy e = true -> exists s, e = ErrString s /\ s <> "".
Proof.
  destruct e as [| |s]; cbn; try discriminate.
  intros Hs. exists s. split; [reflexivity|].
  intros ->. discriminate Hs.
Qed.

(** C2, as it is worded, fails: a response whose [error] is set to the
    empty string makes [executeQuery] return a result. *)
Lemma executeQuery_error_set_returns :
  error_is_set (error empty_error_response) = true /\
  D1Connection.executeQuery (H := digits_engine)
    (connection_to empty_error_response) example_query fresh_world =
  (Ok {| insertId := None; rows := [];
         numAffectedRows := Number.of_Z 0;
         numUpdatedOrDeletedRows := Number.of_Z 0 |},
   after_query example_query fresh_world) /\
  ~ (forall (E : Engine) c q w r s,
        remote_response c q w = Ok r -> error r = ErrString s ->
        fst (D1Connection.executeQuery c q w) = Throw (JsError s)).
Proof.
  split; [reflexivity|]. split; [vm_compute; reflexivity|].
  intros Hall.
  specialize (Hall digits_engine (connection_to empty_error_response)
                example_query fresh_world empty_error_response ""
                eq_refl eq_refl).
  vm_compute in Hall. discriminate Hall.
Qed.

(** C2, amended: when the store's response carries a truthy [error],
    that is a non-empty string, [executeQuery] throws [new Error] with
    exactly that string as its message, after one [prepare], one
    [bind] and one [all], and returns no result. *)
Theorem executeQuery_remote_error `{Engine} (c : D1Connection.t)
    (q : CompiledQuery) (w : world) (r : D1Result) :
  remote_response c q w = Ok r ->
  truthy (error r) = true ->
  exists s, error r = ErrString s /\ s <> "" /\
            D1Connection.executeQuery c q w =
            (Throw (JsError s), after_query q w).
Proof.
  intros Hresp Htruthy.
  destruct (truthy_inv _ Htruthy) as (s & Hs & Hne).
  exists s. rewrite executeQuery_eq, Hresp, Htruthy, Hs. auto.
Qed.

Lemma executeQuery_remote_error_witness :
  exists s, error failed_response = ErrString s /\ s <> "" /\
            D1Connection.executeQuery (H := digits_engine)
              (connection_to failed_response) example_query fresh_world =
            (Throw (JsError s), after_query example_query fresh_world).
Proof.
  apply (executeQuery_remote_error (H := digits_engine)
           (connection_to failed_response) example_query fresh_world
           failed_response); reflexivity.
Defined.

(** C8: [executeQuery] throws [new Error] of the store's error only
    when that error is truthy.  With the empty string as error it
    takes the success path: it builds the result from the response,
    and returns it when the last row has no identifier or one that
    [BigInt] converts. *)
Theorem executeQuery_error_truthiness `{Engine} (c : D1Connection.t)
    (q : CompiledQuery) (w : world) (r : D1Result) :
  remote_response c q w = Ok r ->
  (forall msg,
      fst (D1Connection.executeQuery c q w) = Throw (JsError msg) ->
      truthy (error r) = true /\ error r = ErrString msg) /\
  (error r = ErrString "" ->
   D1Connection.executeQuery c q w = (query_outcome r, after_query q w) /\
   (forall msg, fst (D1Connection.executeQuery c q w) <> Throw (JsError msg)) /\
   (forall rs,
       results r = Some rs -> is_nullish (last_row_id rs) = true ->
       D1Connection.executeQuery c q w =
       (Ok (result_of r rs None), after_query q w)) /\
   (forall rs z,
       results r = Some rs -> is_nullish (last_row_id rs) = false ->
       BigInt (last_row_id rs) = Ok z ->
       D1Connection.executeQuery c q w =
       (Ok (result_of r rs (Some z)), after_query q w))).
Proof.
  intros Hresp. rewrite executeQuery_eq, Hresp. split.
  - intros msg. destruct (truthy (error r)) eqn:Htruthy; cbn [fst].
    + destruct (truthy_inv _ Htruthy) as (s & Hs & _). rewrite Hs. cbn.
      intros [= ->]. auto.
    + intros Hq. destruct (query_outcome_not_JsError _ _ Hq).
  - intros Herr. rewrite Herr. cbn [truthy String.eqb negb fst].
    split; [reflexivity|]. split; [|split].
    + intros msg. apply query_outcome_not_JsError.
    + intros rs Hrs Hn. unfold query_outcome. rewrite Hrs, Hn. reflexivity.
    + intros rs z Hrs Hn Hz. unfold query_outcome. rewrite Hrs, Hn, Hz.
      reflexivity.
Qed.

Lemma executeQuery_error_truthiness_witness :
  remote_response (connection_to empty_error_response) example_query fresh_world
  = Ok empty_error_response /\
  D1Connection.executeQuery (H := digits_engine)
    (connection_to empty_error_response) example_query fresh_world =
  (Ok (result_of empty_error_response [] None),
   after_query example_query fresh_world).
Proof.
  split; [reflexivity|].
  refine (proj1 (proj2 (proj2 (proj2 (executeQuery_error_truthiness
            (H := digits_engine)
            (connection_to empty_error_response) example_query fresh_world
            empty_error_response _) _))) [] _ _); reflexivity.
Defined.

(** ** The conversion of the identifier *)

(** C9: when the store reports no error and the last row's ["id"] is
    a number, [executeQuery] returns exactly when that number is
    integral, with its value as [insertId]; on any other number, 1.5
    for one, it throws the RangeError of the [BigInt] conversion. *)
Theorem executeQuery_number_id `{Engine} (c : D1Connection.t)
    (q : CompiledQuery) (w : world) (r : D1Result) (rs : list row)
    (last_row : row) (x : number) :
  remote_response c q w = Ok r ->
  truthy (error r) = false ->
  results r = Some rs ->
  last rs = Some last_row ->
  last_row !! "id" = Some (VNumber x) ->
  D1Connection.executeQuery c q w =
  (if Number.IsIntegralNumber x
   then Ok (result_of r rs (Some (Number.to_Z x)))
   else Throw JsRangeError,
   after_query q w).
Proof.
  intros Hresp Herr Hrs Hlast Hid.
  rewrite executeQuery_eq, Hresp, Herr. unfold query_outcome.
  rewrite Hrs. unfold last_row_id. rewrite Hlast, Hid. cbn.
  unfold NumberToBigInt. destruct (Number.IsIntegralNumber x); reflexivity.
Qed.

Lemma executeQuery_number_id_witness :
  Number.IsIntegralNumber (Number.of_dyadic 3 (-1)) = false /\
  D1Connection.executeQuery (H := digits_engine)
    (connection_to fractional_id_response) example_query fresh_world =
  (Throw JsRangeError, after_query example_query fresh_world).
Proof.
  split; [reflexivity|].
  refine (executeQuery_number_id (H := digits_engine)
            (connection_to fractional_id_response) example_query fresh_world
            fractional_id_response _ _ (Number.of_dyadic 3 (-1)) _ _ _ _ _);
    reflexivity.
Defined.

(** ** Transactions and streaming *)

(** C4: after any sequence of calls, [beginTransaction],
    [commitTransaction] and [rollbackTransaction], on the connection or
    through the driver, throw [Transactions are not supported yet.],
    and the generator [streamQuery] returns throws
    [D1 Driver does not support streaming] when it is first pulled;
    none of them changes the world. *)
Theorem unsupported_operations `{Engine} (prior : list api_call) (w0 : world)
    (d : D1Driver.t) (c : D1Connection.t) (q : CompiledQuery) (n : number) :
  let w := run_calls prior w0 in
  let unsupported := JsError "Transactions are not supported yet." in
  D1Connection.beginTransaction c w = (Throw unsupported, w) /\
  D1Connection.commitTransaction c w = (Throw unsupported, w) /\
  D1Connection.rollbackTransaction c w = (Throw unsupported, w) /\
  D1Driver.beginTransaction d c w = (Throw unsupported, w) /\
  D1Driver.commitTransaction d c w = (Throw unsupported, w) /\
  D1Driver.rollbackTransaction d c w = (Throw unsupported, w) /\
  exists g,
    D1Connection.streamQuery c q n w = (Ok g, w) /\
    AsyncGenerator_next (A := QueryResult) g w =
    (Throw (JsError "D1 Driver does not support streaming"),
     {| gen_state := Completed; gen_body := gen_body g |}, w).
Proof.
  intros w unsupported. repeat (split; [reflexivity|]).
  eexists. split; reflexivity.
Qed.

(** ** The life of a connection *)

Lemma run_call_allocated `{Engine} (a : api_call) (w : world) :
  (allocated w <= allocated (run_call a w))%nat.
Proof.
  destruct a; cbn [run_call];
    try match goal with
        | |- context [D1Connection.executeQuery ?c ?q ?w] =>
            rewrite executeQuery_eq;
            destruct (remote_response c q w) as [r|e];
            [destruct (truthy (error r))|]
        end;
    try (cbn; lia); apply Nat.le_refl.
Qed.

Lemma run_calls_allocated `{Engine} (prior : list api_call) (w : world) :
  (allocated w <= allocated (run_calls prior w))%nat.
Proof.
  revert w. induction prior as [|a prior IH]; intros w; cbn; [lia|].
  etransitivity; [apply (run_call_allocated a)|apply IH].
Qed.

(** Two connections acquired at different times differ. *)
Lemma acquired_connections_differ `{Engine} (d1 d2 : D1Driver.t)
    (between : list api_call) (w : world) :
  D1Connection.id (D1Connection.new (allocated w) (D1Driver.config d1)) <>
  D1Connection.id
    (D1Connection.new
       (allocated (run_calls between (snd (D1Driver.acquireConnection d1 w))))
       (D1Driver.config d2)).
Proof.
  cbn [D1Connection.id].
  pose proof (run_calls_allocated between (snd (D1Driver.acquireConnection d1 w))) as Hle.
  cbn in Hle. cbn. lia.
Qed.

(** C7: [acquireConnection] returns a connection not allocated before,
    holding the driver's configuration; releasing it at once returns
    and changes nothing; the log of calls on the store is the same
    before and after. *)
Theorem acquire_then_release (d : D1Driver.t) (w : world) :
  exists c w1,
    D1Driver.acquireConnection d w = (Ok c, w1) /\
    D1Connection.config c = D1Driver.config d /\
    is_allocated w (D1Connection.id c) = false /\
    is_allocated w1 (D1Connection.id c) = true /\
    remote_log w1 = remote_log w /\
    D1Driver.releaseConnection d c w1 = (Ok tt, w1) /\
    remote_log (snd (D1Driver.releaseConnection d c w1)) = remote_log w.
Proof.
  exists (D1Connection.new (allocated w) (D1Driver.config d)).
  exists {| remote_log := remote_log w; allocated := S (allocated w) |}.
  unfold is_allocated. cbn [D1Connection.id D1Connection.config allocated remote_log].
  repeat split.
  - apply Nat.ltb_irrefl.
  - apply Nat.ltb_lt. lia.
Qed.

(** ** Further behaviour of [executeQuery] *)

(** X1: when the store rejects the statement, [executeQuery] rethrows
    that very error, after its one [prepare], [bind] and [all]. *)
Theorem executeQuery_rethrows_rejection `{Engine} (c : D1Connection.t)
    (q : CompiledQuery) (w : world) (e : exn) :
  remote_response c q w = Throw e ->
  D1Connection.executeQuery c q w = (Throw e, after_query q w).
Proof.
  intros Hresp. rewrite executeQuery_eq, Hresp. reflexivity.
Qed.

Lemma executeQuery_rethrows_rejection_witness :
  D1Connection.executeQuery (H := digits_engine)
    (D1Connection.new 0 {| database := rejecting_store (JsError "D1_ERROR") |})
    example_query fresh_world =
  (Throw (JsError "D1_ERROR"), after_query example_query fresh_world).
Proof.
  apply (executeQuery_rethrows_rejection (H := digits_engine)). reflexivity.
Defined.

(** X2: a response without error whose [results] is [undefined] makes
    [executeQuery] throw a TypeError at line 116; the fallback
    [|| []] of line 120 never supplies the rows. *)
Theorem executeQuery_undefined_results `{Engine} (c : D1Connection.t)
    (q : CompiledQuery) (w : world) (r : D1Result) :
  remote_response c q w = Ok r ->
  truthy (error r) = false ->
  results r = None ->
  D1Connection.executeQuery c q w = (Throw JsTypeError, after_query q w).
Proof.
  intros Hresp Herr Hrs.
  rewrite executeQuery_eq, Hresp, Herr. unfold query_outcome.
  rewrite Hrs. reflexivity.
Qed.

Lemma executeQuery_undefined_results_witness :
  D1Connection.executeQuery (H := digits_engine)
    (connection_to no_results_response) example_query fresh_world =
  (Throw JsTypeError, after_query example_query fresh_world).
Proof.
  apply (executeQuery_undefined_results (H := digits_engine)
           (connection_to no_results_response) example_query fresh_world
           no_results_response); reflexivity.
Defined.

(** X3: when the last row's ["id"] is neither [undefined] nor [null],
    whatever its type, [executeQuery] does what [BigInt] does on it:
    it returns the converted value as [insertId], or throws the error
    of the conversion, a SyntaxError for a text that is no integer. *)
Theorem executeQuery_id_conversion `{Engine} (c : D1Connection.t)
    (q : CompiledQuery) (w : world) (r : D1Result) (rs : list row) :
  remote_response c q w = Ok r ->
  truthy (error r) = false ->
  results r = Some rs ->
  is_nullish (last_row_id rs) = false ->
  D1Connection.executeQuery c q w =
    (match BigInt (last_row_id rs) with
     | Ok z => Ok (result_of r rs (Some z))
     | Throw e => Throw e
     end, after_query q w) /\
  (forall s, last_row_id rs = VString s -> StringToBigInt s = None ->
             D1Connection.executeQuery c q w =
             (Throw JsSyntaxError, after_query q w)).
Proof.
  intros Hresp Herr Hrs Hn.
  rewrite executeQuery_eq, Hresp, Herr. unfold query_outcome.
  rewrite Hrs, Hn. split; [reflexivity|].
  intros s Hs Hparse. rewrite Hs. cbn. rewrite Hparse. reflexivity.
Qed.

Lemma executeQuery_id_conversion_witness :
  last_row_id [({[ "id" := VNumber (Number.of_Z 1) ]} : row);
               ({[ "id" := VString "a1" ]} : row)] = VString "a1" /\
  D1Connection.executeQuery (H := digits_engine)
    (connection_to text_id_response) example_query fresh_world =
  (Throw JsSyntaxError, after_query example_query fresh_world).
Proof.
  split; [reflexivity|].
  refine (proj2 (executeQuery_id_conversion (H := digits_engine)
            (connection_to text_id_response) example_query fresh_world
            text_id_response _ _ _ _ _) "a1" _ _); reflexivity.
Defined.

(** X4: a connection holds nothing but its configuration: two
    connections to the same configuration, in worlds with the same
    log of calls on the store, settle a query alike. *)
Theorem executeQuery_stateless `{Engine} (c1 c2 : D1Connection.t)
    (q : CompiledQuery) (w1 w2 : world) :
  D1Connection.config c1 = D1Connection.config c2 ->
  remote_log w1 = remote_log w2 ->
  fst (D1Connection.executeQuery c1 q w1) =
  fst (D1Connection.executeQuery c2 q w2) /\
  remote_log (snd (D1Connection.executeQuery c1 q w1)) =
  remote_log (snd (D1Connection.executeQuery c2 q w2)).
Proof.
  intros Hconfig Hlog. rewrite !executeQuery_eq.
  unfold remote_response, after_query. rewrite Hconfig, Hlog.
  destruct (respond _ _ _) as [r|e]; [|split; reflexivity].
  destruct (truthy (error r)); split; reflexivity.
Qed.

Lemma executeQuery_stateless_witness :
  fst (D1Connection.executeQuery (H := digits_engine)
         (D1Connection.new 0 {| database := constant_store example_response |})
         example_query {| remote_log := []; allocated := 1 |}) =
  fst (D1Connection.executeQuery (H := digits_engine)
         (D1Connection.new 4 {| database := constant_store example_response |})
         example_query {| remote_log := []; allocated := 9 |}).
Proof.
  refine (proj1 (executeQuery_stateless (H := digits_engine)
            (D1Connection.new 0 {| database := constant_store example_response |})
            (D1Connection.new 4 {| database := constant_store example_response |})
            example_query {| remote_log := []; allocated := 1 |}
            {| remote_log := []; allocated := 9 |} _ _)); reflexivity.
Defined.

(** ** Sequences of calls *)

Lemma run_call_world `{Engine} (a : api_call) (w : world) :
  run_call a w =
  {| remote_log := remote_log w ++ store_calls a;
     allocated := allocated w + allocations a |}.
Proof.
  destruct w as [l n].
  destruct a; cbn [run_call store_calls allocations];
    try match goal with
        | |- context [D1Connection.executeQuery ?c ?q ?w] =>
            rewrite executeQuery_eq;
            destruct (remote_response c q w) as [r|e];
            [destruct (truthy (error r))|]
        end;
    cbn; rewrite ?app_nil_r, ?Nat.add_0_r, ?Nat.add_1_r; reflexivity.
Qed.

(** X5: after any sequence of calls on drivers and connections, the
    log of calls on the store has grown by one [prepare], [bind],
    [all] triple for each [executeQuery], in the order of the calls,
    and by nothing else; and one connection was created for each
    [acquireConnection]. *)
Theorem run_calls_world `{Engine} (calls : list api_call) (w : world) :
  run_calls calls w =
  {| remote_log := remote_log w ++ flat_map store_calls calls;
     allocated := allocated w + sum_list (map allocations calls) |}.
Proof.
  revert w. induction calls as [|a calls IH]; intros w.
  - destruct w as [l n]. cbn. rewrite app_nil_r, Nat.add_0_r. reflexivity.
  - change (run_calls (a :: calls) w) with (run_calls calls (run_call a w)).
    rewrite IH, run_call_world. cbn [remote_log allocated flat_map map sum_list].
    rewrite <- app_assoc. f_equal. unfold id. lia.
Qed.

(** X6: two [acquireConnection] calls, on any drivers and with any
    calls in between, return two different connection objects, each
    holding its driver's configuration. *)
Theorem acquireConnection_never_reuses `{Engine} (d1 d2 : D1Driver.t)
    (between : list api_call) (w : world) :
  exists c1 w1 c2 w2,
    D1Driver.acquireConnection d1 w = (Ok c1, w1) /\
    D1Driver.acquireConnection d2 (run_calls between w1) = (Ok c2, w2) /\
    D1Connection.id c1 <> D1Connection.id c2 /\
    D1Connection.config c1 = D1Driver.config d1 /\
    D1Connection.config c2 = D1Driver.config d2.
Proof.
  eexists _, _, _, _. split; [reflexivity|]. split; [reflexivity|].
  split; [|split; reflexivity].
  cbn [D1Connection.id].
  pose proof (run_calls_allocated between
                {| remote_log := remote_log w; allocated := S (allocated w) |}) as Hle.
  cbn [allocated] in Hle. lia.
Qed.

(** X7: a connection acquired from the driver a dialect creates sends
    its queries to the database of the dialect's configuration. *)
Theorem dialect_connection_queries_database `{Engine} (dialect : D1Dialect.t)
    (w : world) :
  exists c w1,
    D1Driver.acquireConnection (D1Dialect.createDriver dialect) w = (Ok c, w1) /\
    remote_log w1 = remote_log w /\
    forall q w2,
      fst (D1Connection.executeQuery c q w2) =
      match respond (database (D1Dialect.config dialect))
              (remote_log w2 ++ [CallPrepare (sql q); CallBind (parameters q)])%list
              {| stmt_sql := sql q; stmt_params := parameters q |} with
      | Throw e => Throw e
      | Ok r => if truthy (error r) then Throw (new_Error (error r))
                else query_outcome r
      end.
Proof.
  eexists _, _. split; [reflexivity|]. split; [reflexivity|].
  intros q w2. rewrite executeQuery_eq. unfold remote_response.
  cbn [D1Connection.config D1Dialect.createDriver D1Driver.config].
  destruct (respond _ _ _) as [r|e]; [|reflexivity].
  destruct (truthy (error r)); reflexivity.
Qed.

(** ** Integers as binary64 numbers *)

Lemma digits2_pos_bounds (m : positive) :
  2 ^ (Z.pos (digits2_pos m) - 1) <= Z.pos m < 2 ^ Z.pos (digits2_pos m).
Proof.
  induction m as [p IH|p IH|]; cbn [digits2_pos].
  - rewrite Pos2Z.inj_succ.
    replace (Z.succ (Z.pos (digits2_pos p)) - 1) with (Z.succ (Z.pos (digits2_pos p) - 1)) by lia.
    rewrite !Z.pow_succ_r by lia. lia.
  - rewrite Pos2Z.inj_succ.
    replace (Z.succ (Z.pos (digits2_pos p)) - 1) with (Z.succ (Z.pos (digits2_pos p) - 1)) by lia.
    rewrite !Z.pow_succ_r by lia. lia.
  - cbn. lia.
Qed.

Lemma shift_pos_value (m k : positive) :
  Z.pos (Pos.iter xO m k) = Z.pos m * 2 ^ Z.pos k.
Proof.
  induction k as [|k IH] using Pos.peano_ind.
  - cbn. lia.
  - rewrite Pos.iter_succ, Pos2Z.inj_succ, Z.pow_succ_r by lia.
    rewrite Pos2Z.inj_xO, IH. lia.
Qed.

Lemma shift_pos_digits (m k : positive) :
  digits2_pos (Pos.iter xO m k) = (digits2_pos m + k)%positive.
Proof.
  induction k as [|k IH] using Pos.peano_ind.
  - cbn. lia.
  - rewrite Pos.iter_succ. cbn [digits2_pos]. rewrite IH. lia.
Qed.

Lemma iter_pos_comm {A} (f : A -> A) (p : positive) (x : A) :
  SpecFloat.iter_pos f p (f x) = f (SpecFloat.iter_pos f p x).
Proof.
  revert x. induction p as [p IH|p IH|]; intros x; cbn [SpecFloat.iter_pos].
  - rewrite !IH. reflexivity.
  - rewrite !IH. reflexivity.
  - reflexivity.
Qed.

Lemma iter_pos_succ {A} (f : A -> A) (p : positive) (x : A) :
  SpecFloat.iter_pos f (Pos.succ p) x = SpecFloat.iter_pos f p (f x).
Proof.
  revert x. induction p as [p IH|p IH|]; intros x.
  - change (Pos.succ p~1) with ((Pos.succ p)~0)%positive.
    cbn [SpecFloat.iter_pos]. rewrite !IH.
    repeat rewrite iter_pos_comm. reflexivity.
  - reflexivity.
  - reflexivity.
Qed.

Lemma shr_shift_pos (m k : positive) :
  SpecFloat.iter_pos shr_1 k {| shr_m := Z.pos (Pos.iter xO m k); shr_r := false; shr_s := false |} =
  {| shr_m := Z.pos m; shr_r := false; shr_s := false |}.
Proof.
  revert m. induction k as [|k IH] using Pos.peano_ind; intros m.
  - reflexivity.
  - rewrite iter_pos_succ, Pos.iter_succ. cbn [shr_1 orb]. apply IH.
Qed.

Lemma fexp_small (d : Z) : 1 <= d -> fexp Number.prec Number.emax d = d - 53.
Proof. unfold fexp, emin, Number.prec, Number.emax. lia. Qed.

(** A 53-bit mantissa with an exponent in range is not rounded. *)
Lemma binary_round_aux_canonical (s : bool) (m : positive) (e : Z) :
  digits2_pos m = 53%positive -> -1074 <= e <= 971 ->
  binary_round_aux Number.prec Number.emax s (Z.pos m) e loc_Exact = S754_finite s m e.
Proof.
  intros Hd He. unfold binary_round_aux, shr_fexp. cbn [Zdigits2 shr_record_of_loc].
  rewrite Hd.
  replace (fexp Number.prec Number.emax (53 + e) - e) with 0 by (unfold fexp, emin, Number.prec, Number.emax; lia).
  cbn [shr loc_of_shr_record shr_m round_nearest_even Zdigits2]. rewrite Hd.
  replace (fexp Number.prec Number.emax (53 + e) - e) with 0 by (unfold fexp, emin, Number.prec, Number.emax; lia).
  cbn [shr shr_m].
  replace (e <=? Number.emax - Number.prec) with true by (symmetry; apply Z.leb_le; unfold Number.prec, Number.emax; lia).
  reflexivity.
Qed.

Lemma shifted_pos (P n : positive) (k : positive) :
  Z.pos P = Z.pos n * 2 ^ Z.pos k -> P = Pos.iter xO n k.
Proof.
  intros HP. apply Pos2Z.inj. rewrite shift_pos_value. exact HP.
Qed.

Lemma digits2_pos_shifted (P n : positive) (K : Z) :
  0 <= K -> Z.pos P = Z.pos n * 2 ^ K ->
  Z.pos (digits2_pos P) = Z.pos (digits2_pos n) + K.
Proof.
  intros HK HP. destruct K as [|k|k]; [| |lia].
  - replace P with n by (apply Pos2Z.inj; lia). lia.
  - rewrite (shifted_pos P n k HP), shift_pos_digits. lia.
Qed.

(** Rounding a mantissa that is [n] shifted left, [n] of at most 53
    bits, gives [n] in canonical form. *)
Lemma binary_round_exact (s : bool) (P n : positive) (K : Z) :
  0 <= K -> Z.pos P = Z.pos n * 2 ^ K -> Z.pos (digits2_pos n) <= 53 ->
  binary_round Number.prec Number.emax s P (- K) =
  S754_finite s (Z.to_pos (Z.pos n * 2 ^ (53 - Z.pos (digits2_pos n))))
    (Z.pos (digits2_pos n) - 53).
Proof.
  intros HK HP Hd.
  pose proof (digits2_pos_shifted P n K HK HP) as HdP.
  set (d := Z.pos (digits2_pos n)) in *.
  assert (Hd1 : 1 <= d) by (unfold d; lia).
  unfold binary_round, shl_align.
  replace (Z.pos (digits2_pos P) + - K) with d by lia.
  rewrite (fexp_small d Hd1).
  destruct (d - 53 - - K) as [|j|t] eqn:Hj.
  - (* no shift: P has 53 bits *)
    rewrite binary_round_aux_canonical; [|apply Pos2Z.inj; lia|lia].
    f_equal; [|lia].
    apply Pos2Z.inj. rewrite Z2Pos.id by (apply Z.mul_pos_pos; [lia|apply Z.pow_pos_nonneg; lia]).
    rewrite HP. do 2 f_equal. lia.
  - (* P has more than 53 bits: the low ones are zero *)
    assert (HP' : Z.pos P = Z.pos (Z.to_pos (Z.pos n * 2 ^ (53 - d))) * 2 ^ Z.pos j).
    { rewrite Z2Pos.id by (apply Z.mul_pos_pos; [lia|apply Z.pow_pos_nonneg; lia]).
      rewrite HP, <- Z.mul_assoc, <- Z.pow_add_r by lia. do 2 f_equal. lia. }
    set (m := Z.to_pos (Z.pos n * 2 ^ (53 - d))) in *.
    assert (Hdm : digits2_pos m = 53%positive).
    { apply Pos2Z.inj.
      pose proof (digits2_pos_shifted P m (Z.pos j) ltac:(lia) HP'). lia. }
    unfold binary_round_aux, shr_fexp. cbn [Zdigits2 shr_record_of_loc].
    replace (fexp Number.prec Number.emax (Z.pos (digits2_pos P) + - K) - - K) with (Z.pos j)
      by (replace (Z.pos (digits2_pos P) + - K) with d by lia;
          rewrite (fexp_small d Hd1); lia).
    cbn [shr]. rewrite (shifted_pos P m j HP'), shr_shift_pos.
    cbn [loc_of_shr_record shr_m round_nearest_even Zdigits2]. rewrite Hdm.
    replace (fexp Number.prec Number.emax (53 + (- K + Z.pos j)) - (- K + Z.pos j)) with 0
      by (unfold fexp, emin, Number.prec, Number.emax; lia).
    cbn [shr shr_m].
    replace (- K + Z.pos j <=? Number.emax - Number.prec) with true
      by (symmetry; apply Z.leb_le; unfold Number.prec, Number.emax; lia).
    f_equal. lia.
  - (* P has fewer than 53 bits: it is shifted left *)
    rewrite binary_round_aux_canonical; [| |lia].
    + f_equal. apply Pos2Z.inj.
      rewrite Z2Pos.id by (apply Z.mul_pos_pos; [lia|apply Z.pow_pos_nonneg; lia]).
      rewrite shift_pos_value, HP, <- Z.mul_assoc, <- Z.pow_add_r by lia.
      do 2 f_equal. lia.
    + apply Pos2Z.inj. rewrite shift_pos_digits. lia.
Qed.

Lemma digits2_pos_le_53 (n : positive) :
  Z.pos n < 2 ^ 53 -> Z.pos (digits2_pos n) <= 53.
Proof.
  intros Hn. pose proof (digits2_pos_bounds n) as [Hlow _].
  assert (Hlt : 2 ^ (Z.pos (digits2_pos n) - 1) < 2 ^ 53) by lia.
  apply Z.pow_lt_mono_r_iff in Hlt; lia.
Qed.

(** The number of a positive integer below 2^53. *)
Lemma of_Z_pos (n : positive) :
  Z.pos n < 2 ^ 53 ->
  Number.of_Z (Z.pos n) =
  S754_finite false (Z.to_pos (Z.pos n * 2 ^ (53 - Z.pos (digits2_pos n))))
    (Z.pos (digits2_pos n) - 53).
Proof.
  intros Hn. unfold Number.of_Z, binary_normalize.
  change 0 with (- 0).
  apply binary_round_exact; [lia|lia|apply digits2_pos_le_53; exact Hn].
Qed.

Lemma of_Z_neg (n : positive) :
  Z.pos n < 2 ^ 53 ->
  Number.of_Z (Z.neg n) =
  S754_finite true (Z.to_pos (Z.pos n * 2 ^ (53 - Z.pos (digits2_pos n))))
    (Z.pos (digits2_pos n) - 53).
Proof.
  intros Hn. unfold Number.of_Z, binary_normalize.
  change 0 with (- 0).
  apply binary_round_exact; [lia|lia|apply digits2_pos_le_53; exact Hn].
Qed.

Lemma canonical_integral (s : bool) (n : positive) :
  Z.pos (digits2_pos n) <= 53 ->
  NumberToBigInt
    (S754_finite s (Z.to_pos (Z.pos n * 2 ^ (53 - Z.pos (digits2_pos n))))
       (Z.pos (digits2_pos n) - 53)) =
  Ok (cond_Zopp s (Z.pos n)).
Proof.
  intros Hd. unfold NumberToBigInt, Number.IsIntegralNumber, Number.to_Z.
  set (d := Z.pos (digits2_pos n)) in *.
  assert (Hd1 : 1 <= d) by (unfold d; lia).
  rewrite Z2Pos.id by (apply Z.mul_pos_pos; [lia|apply Z.pow_pos_nonneg; lia]).
  replace (- (d - 53)) with (53 - d) by lia.
  destruct (Z.leb_spec 0 (d - 53)) as [Hge|Hlt].
  - replace (53 - d) with 0 by lia. replace (d - 53) with 0 by lia.
    do 2 f_equal. lia.
  - rewrite Z_mod_mult. cbn [Z.eqb].
    rewrite Z.div_mul by (apply Z.pow_nonzero; lia). reflexivity.
Qed.

(** Integers of magnitude below 2^53 go to [number] and back to
    [BigInt] unchanged. *)
Lemma NumberToBigInt_of_Z (z : Z) :
  - 2 ^ 53 < z < 2 ^ 53 -> NumberToBigInt (Number.of_Z z) = Ok z.
Proof.
  intros Hz. destruct z as [|n|n].
  - reflexivity.
  - rewrite of_Z_pos by lia.
    apply (canonical_integral false). apply digits2_pos_le_53. lia.
  - rewrite of_Z_neg by lia.
    apply (canonical_integral true). apply digits2_pos_le_53. lia.
Qed.

Lemma shl_align_value (mx : positive) (ex ez : Z) :
  ez <= ex -> Z.pos (fst (shl_align mx ex ez)) = Z.pos mx * 2 ^ (ex - ez).
Proof.
  intros Hle. unfold shl_align.
  destruct (ez - ex) as [|t|t] eqn:Ht; cbn [fst].
  - replace (ex - ez) with 0 by lia. lia.
  - lia.
  - rewrite shift_pos_value. do 2 f_equal. lia.
Qed.

(** The sum of two counts is exact as long as it is below 2^53. *)
Lemma add_of_Z (a b : Z) :
  0 <= a -> 0 <= b -> a + b < 2 ^ 53 ->
  Number.add (Number.of_Z a) (Number.of_Z b) = Number.of_Z (a + b).
Proof.
  intros Ha Hb Hab.
  destruct a as [|a|a]; [|destruct b as [|b|b]|]; try lia.
  - destruct b as [|b|b]; [reflexivity| |lia].
    rewrite Z.add_0_l, of_Z_pos by lia. reflexivity.
  - rewrite Z.add_0_r, of_Z_pos by lia. reflexivity.
  - assert (Hda := digits2_pos_le_53 a ltac:(lia)).
    assert (Hdb := digits2_pos_le_53 b ltac:(lia)).
    rewrite (of_Z_pos a), (of_Z_pos b) by lia.
    set (da := Z.pos (digits2_pos a)) in *.
    set (db := Z.pos (digits2_pos b)) in *.
    assert (1 <= da) by (unfold da; lia). assert (1 <= db) by (unfold db; lia).
    unfold Number.add, SFadd. cbn [cond_Zopp].
    set (ez := Z.min (da - 53) (db - 53)).
    rewrite !shl_align_value by (unfold ez; lia).
    rewrite !Z2Pos.id by (apply Z.mul_pos_pos; [lia|apply Z.pow_pos_nonneg; lia]).
    assert (Hsum : Z.pos a * 2 ^ (53 - da) * 2 ^ (da - 53 - ez) +
                   Z.pos b * 2 ^ (53 - db) * 2 ^ (db - 53 - ez) =
                   Z.pos (a + b) * 2 ^ (- ez)).
    { rewrite <- !Z.mul_assoc, <- !Z.pow_add_r by (unfold ez; lia).
      replace (53 - da + (da - 53 - ez)) with (- ez) by lia.
      replace (53 - db + (db - 53 - ez)) with (- ez) by lia. lia. }
    rewrite Hsum.
    assert (Hpos : 0 < Z.pos (a + b) * 2 ^ (- ez))
      by (apply Z.mul_pos_pos; [lia|apply Z.pow_pos_nonneg; unfold ez; lia]).
    destruct (Z.pos (a + b) * 2 ^ (- ez)) as [|P|P] eqn:HP; try lia.
    unfold binary_normalize.
    replace ez with (- (- ez)) at 1 by lia.
    rewrite (binary_round_exact false P (a + b) (- ez));
      [|unfold ez; lia|congruence|apply digits2_pos_le_53; lia].
    change (Z.pos a + Z.pos b) with (Z.pos (a + b)).
    rewrite of_Z_pos by lia. reflexivity.
Qed.

(** X8: when the store reports no error and the last row's ["id"] is
    the number of an integer of magnitude below 2^53, [executeQuery]
    returns that very integer as [insertId]. *)
Theorem executeQuery_safe_integer_id `{Engine} (c : D1Connection.t)
    (q : CompiledQuery) (w : world) (r : D1Result) (rs : list row)
    (last_row : row) (z : Z) :
  remote_response c q w = Ok r ->
  truthy (error r) = false ->
  results r = Some rs ->
  last rs = Some last_row ->
  last_row !! "id" = Some (VNumber (Number.of_Z z)) ->
  - 2 ^ 53 < z < 2 ^ 53 ->
  D1Connection.executeQuery c q w =
  (Ok (result_of r rs (Some z)), after_query q w).
Proof.
  intros Hresp Herr Hrs Hlast Hid Hz.
  rewrite executeQuery_eq, Hresp, Herr. unfold query_outcome.
  rewrite Hrs. unfold last_row_id. rewrite Hlast, Hid.
  cbn [default]. unfold id. cbn [is_nullish BigInt].
  rewrite (NumberToBigInt_of_Z z Hz).
  reflexivity.
Qed.

Lemma executeQuery_safe_integer_id_witness :
  D1Connection.executeQuery (H := digits_engine)
    (connection_to example_response) example_query fresh_world =
  (Ok (result_of example_response [example_row] (Some 7)),
   after_query example_query fresh_world).
Proof.
  refine (executeQuery_safe_integer_id (H := digits_engine)
            (connection_to example_response) example_query fresh_world
            example_response [example_row] example_row 7 _ _ _ _ _ _);
    try reflexivity.
  split; reflexivity.
Defined.

(** X9: when [executeQuery] returns and the store's [rows_read] and
    [rows_written] are the numbers of two counts whose sum is below
    2^53, [numAffectedRows] is the number of that sum: nothing is lost
    to rounding. *)
Theorem executeQuery_exact_count `{Engine} (c : D1Connection.t)
    (q : CompiledQuery) (w w' : world) (res : QueryResult) (r : D1Result)
    (a b : Z) :
  D1Connection.executeQuery c q w = (Ok res, w') ->
  remote_response c q w = Ok r ->
  rows_read (meta r) = Number.of_Z a ->
  rows_written (meta r) = Number.of_Z b ->
  0 <= a -> 0 <= b -> a + b < 2 ^ 53 ->
  numAffectedRows res = Number.of_Z (a + b) /\
  NumberToBigInt (numAffectedRows res) = Ok (a + b).
Proof.
  intros Hrun Hresp Hread Hwritten Ha Hb Hab.
  destruct (executeQuery_Ok_inv _ _ _ _ _ Hrun) as (r' & Hresp' & _ & Hout & _).
  assert (r' = r) as -> by congruence.
  assert (Hn : numAffectedRows res = Number.of_Z (a + b)).
  { destruct (query_outcome_Ok_inv _ _ Hout)
      as (rs & _ & [[_ ->] | (_ & z & _ & ->)]);
      cbn [numAffectedRows result_of]; unfold affected_rows;
      rewrite Hread, Hwritten; apply add_of_Z; assumption. }
  split; [exact Hn|]. rewrite Hn. apply NumberToBigInt_of_Z. lia.
Qed.

Lemma executeQuery_exact_count_witness :
  numAffectedRows empty_result = Number.of_Z (2 + 3) /\
  NumberToBigInt (numAffectedRows empty_result) = Ok (2 + 3).
Proof.
  refine (executeQuery_exact_count (H := digits_engine)
            (connection_to empty_response) example_query fresh_world
            (after_query example_query fresh_world) empty_result empty_response
            2 3 _ _ _ _ _ _ _); try reflexivity; try (vm_compute; reflexivity).
  - vm_compute. discriminate.
  - vm_compute. discriminate.
Defined.
